(** * Planning permission decision matrix

    A shallow embedding of [get_planning_permission_decision] from
    [planning_permission.py], and the properties of its three stages:
    universal conditions, the structure/location/height baseline, and the
    final modifier.

    Data model.  The three categorical parameters are Python [str] values
    and are kept as strings, because the code compares them with [==] against
    literals and never checks enum membership.  A string is a [String.string],
    read as the UTF-8 bytes of the Python text, so that [==] on [str] is
    [String.eqb].  The nine flags are [bool].  The result is the string the
    code returns.

    Case folding.  [str.lower()] depends on the Unicode case table, which is
    not part of this repository.  The decision function is written with the
    ASCII case folding [Py.lower]; what is known of [str.lower()] beyond ASCII
    is stated as [str_lower_facts], and [keyword_tests_agree] shows that the
    three comparisons of the dispatch come out the same with any such
    function. *)

From Stdlib Require Import Bool List NArith Ascii String.
From Stdlib Require Import ZArith DecimalString Lia.
Import ListNotations.

Open Scope string_scope.

(** ** Python built-ins used by the function *)

Module Py.

(** [any(xs)] on a list of booleans. *)
Definition any (xs : list bool) : bool := existsb (fun b => b) xs.

(** ASCII case folding of one byte: the letters [A]..[Z] (65..90) move to
    [a]..[z], every other byte stays.  On ASCII text this is what
    [str.lower()] does to each character. *)
Definition to_lower (c : ascii) : ascii :=
  let n := N_of_ascii c in
  if (65 <=? n)%N && (n <=? 90)%N then ascii_of_N (n + 32) else c.

(** ASCII case folding of a string.  It is [s.lower()] when [s] is ASCII
    text.  On other text [str.lower()] also lowercases the cased non-ASCII
    characters, which [lower] leaves as they are; line 114 uses the result
    only in comparisons with three ASCII keywords, where the two agree. *)
Fixpoint lower (s : string) : string :=
  match s with
  | EmptyString => EmptyString
  | String c rest => String (to_lower c) (lower rest)
  end.

(** [s.isascii()]: no byte of the UTF-8 text is above 127. *)
Definition is_ascii_char (c : ascii) : bool := (N_of_ascii c <? 128)%N.

Fixpoint is_ascii (s : string) : bool :=
  match s with
  | EmptyString => true
  | String c rest => is_ascii_char c && is_ascii rest
  end.

(** A reading of [str.lower()] that goes beyond ASCII, used to run the
    statements on sample text: besides [A]..[Z] it lowercases the capital
    letters of Latin-1, U+00C0..U+00DE without the sign U+00D7.  In UTF-8
    these are the byte 195 followed by 128..158 (not 151), and the lowercase
    letter is 195 followed by that byte plus 32.  [str.lower()] knows more
    letters; the theorems hold for any function with [str_lower_facts]. *)
Definition latin1_capital (c : ascii) : bool :=
  let n := N_of_ascii c in
  (128 <=? n)%N && (n <=? 158)%N && negb (n =? 151)%N.

Definition lower_latin1_byte (after_195 : bool) (c : ascii) : ascii :=
  if after_195 && latin1_capital c
  then ascii_of_N (N_of_ascii c + 32)
  else to_lower c.

Fixpoint lower_latin1_from (after_195 : bool) (s : string) : string :=
  match s with
  | EmptyString => EmptyString
  | String c rest =>
      String (lower_latin1_byte after_195 c)
             (lower_latin1_from (N_of_ascii c =? 195)%N rest)
  end.

Definition lower_latin1 (s : string) : string := lower_latin1_from false s.

End Py.

(** ** The decision function *)

(** The list built at lines 101-109. *)
Definition universal_flags
    (listed_building article_2_3_land article_2_4_land article_4_directive
     aonb works_affecting_tpo face_listed_building : bool) : list bool :=
  [ listed_building; article_2_3_land; article_2_4_land; article_4_directive;
    aonb; works_affecting_tpo; face_listed_building ].

(** Step 2, lines 114-137: the value the local variable [baseline] holds when
    step 3 is reached. *)
Definition baseline
    (location_of_enclosure height_of_enclosure structure_type : string)
    (new_build_property : bool) : string :=
  let structure := Py.lower structure_type in
  if structure =? "gate" then
    if new_build_property then "Y" else "N"
  else if structure =? "fence" then
    if location_of_enclosure =? "adjacent" then
      if height_of_enclosure =? "up_to_1m" then "N" else "Y"
    else
      if height_of_enclosure =? "above_2m" then "Y" else "N"
  else if structure =? "wall" then
    if height_of_enclosure =? "above_2m" then "Y" else "N"
  else
    "N".

(** Lines 61-144, with the parameters in the order of the signature. *)
Definition get_planning_permission_decision
    (location_of_enclosure height_of_enclosure structure_type : string)
    (listed_building article_2_3_land article_2_4_land article_4_directive
     aonb works_affecting_tpo face_listed_building : bool)
    (new_build_property pd_removed_by_previous_planning : bool) : string :=
  if Py.any (universal_flags listed_building article_2_3_land article_2_4_land
               article_4_directive aonb works_affecting_tpo
               face_listed_building)
  then "Y"
  else
    let baseline :=
      baseline location_of_enclosure height_of_enclosure structure_type
               new_build_property in
    if pd_removed_by_previous_planning then "Y" else baseline.

(** ** Vocabulary of the statements *)

(** None of the seven universal conditions holds. *)
Definition no_universal_flag
    (listed_building article_2_3_land article_2_4_land article_4_directive
     aonb works_affecting_tpo face_listed_building : bool) : Prop :=
  listed_building = false /\ article_2_3_land = false /\
  article_2_4_land = false /\ article_4_directive = false /\
  aonb = false /\ works_affecting_tpo = false /\
  face_listed_building = false.

(** The three structure types of the prompt (line 238). *)
Definition structure_choices : list string := [ "fence"; "wall"; "gate" ].

(** What the statements use of Python's [str.lower()], as a function on
    UTF-8 text: on ASCII text it is the ASCII case folding; lowercasing twice
    is lowercasing once; and only ASCII text lowercases to one of the three
    structure keywords (the two non-ASCII characters whose lowercase form
    has an ASCII letter give [k] and [i], which occur in no keyword). *)
Record str_lower_facts (str_lower : string -> string) : Prop := {
  facts_ascii :
    forall s, Py.is_ascii s = true -> str_lower s = Py.lower s;
  facts_idempotent :
    forall s, str_lower (str_lower s) = str_lower s;
  facts_keywords :
    forall s, In (str_lower s) structure_choices -> Py.is_ascii s = true
}.

(** ** The interactive front end (lines 147-288)

    The program reads lines from standard input and writes prompts, printed
    lines and logged errors.  A run is a function of the lines still to be
    read; it gives an outcome, the lines left, and the events it emitted in
    program order. *)

Module Cli.

Inductive event : Type :=
| Prompt (text : string)      (* written by [input(text)] before it reads *)
| Print (text : string)       (* [print(text)] *)
| LogError (message : string) (* [logging.error(message)] *).

(** [input()] raises [EOFError] when no line is left; indexing a dict with a
    key it does not hold raises [KeyError].  Neither is caught anywhere. *)
Inductive exn : Type := EOFError | KeyError.

Inductive outcome (A : Type) : Type :=
| Ok (a : A)
| Raise (e : exn).
Arguments Ok {A} a.
Arguments Raise {A} e.

Definition IO (A : Type) : Type :=
  list string -> outcome A * list string * list event.

Definition ret {A} (a : A) : IO A := fun stdin => (Ok a, stdin, []).

Definition bind {A B} (m : IO A) (k : A -> IO B) : IO B :=
  fun stdin =>
    match m stdin with
    | (Ok a, stdin', ev) =>
        let '(r, stdin'', ev') := k a stdin' in
        (r, stdin'', (ev ++ ev')%list)
    | (Raise e, stdin', ev) => (Raise e, stdin', ev)
    end.

Notation "x <- m ;; k" := (bind m (fun x => k))
  (at level 61, m at next level, right associativity).
Notation "m ;; k" := (bind m (fun _ => k))
  (at level 61, right associativity).

Definition print (text : string) : IO unit :=
  fun stdin => (Ok tt, stdin, [Print text]).

(** A dict with integer keys, in insertion order. *)
Definition dict (V : Type) : Type := list (Z * V).

Definition keys {V} (d : dict V) : list Z := map fst d.

(** [k in d]. *)
Definition contains {V} (d : dict V) (k : Z) : bool :=
  existsb (Z.eqb k) (keys d).

(** [d[k]]. *)
Fixpoint getitem {V} (d : dict V) (k : Z) : IO V :=
  match d with
  | [] => fun stdin => (Raise KeyError, stdin, [])
  | (k', v) :: d' => if (k =? k')%Z then ret v else getitem d' k
  end.

(** [str(n)] for an integer. *)
Definition str_of_int (n : Z) : string :=
  NilEmpty.string_of_int (Z.to_int n).

(** [str(ks)] for a list of integers, as [format] renders it: [[1, 2]]. *)
Definition str_of_int_list (ks : list Z) : string :=
  "[" ++ String.concat ", " (map str_of_int ks) ++ "]".

Definition newline : string := String "010"%char EmptyString.

(** The text the program printed. *)
Definition printed (ev : list event) : list string :=
  flat_map (fun e => match e with Print t => [t] | _ => [] end) ev.

Definition prompts (ev : list event) : nat :=
  List.length
    (filter (fun e => match e with Prompt _ => true | _ => false end) ev).

Definition logged_errors (ev : list event) : nat :=
  List.length
    (filter (fun e => match e with LogError _ => true | _ => false end) ev).

Section WithInt.

(** [int(line)] on a line of input: [None] stands for [ValueError]. *)
Variable py_int : string -> option Z.

(** Lines 147-172.  Each turn of the [while True] loop reads one line, so the
    loop is a recursion on the lines left. *)
Fixpoint get_numeric_choice {V} (prompt_text : string)
    (valid_choices : dict V) (stdin : list string)
    : outcome Z * list string * list event :=
  match stdin with
  | [] => (Raise EOFError, [], [Prompt prompt_text])
  | line :: stdin' =>
      match py_int line with
      | Some choice =>
          if contains valid_choices choice then
            (Ok choice, stdin', [Prompt prompt_text])
          else
            let '(r, rest, ev) :=
              get_numeric_choice prompt_text valid_choices stdin' in
            (r, rest,
             Prompt prompt_text
             :: LogError ("Invalid choice. Please enter one of: "
                          ++ str_of_int_list (keys valid_choices))
             :: ev)
      | None =>
          let '(r, rest, ev) :=
            get_numeric_choice prompt_text valid_choices stdin' in
          (r, rest,
           Prompt prompt_text
           :: LogError "Invalid input; please enter a number."
           :: ev)
      end
  end.

(** Lines 175-184. *)
Definition get_yes_no (prompt_text : string) : IO bool :=
  let valid : dict bool := [(1, true); (2, false)]%Z in
  let prompt := prompt_text ++ " (Enter 1 for Yes, 2 for No): " in
  choice <- get_numeric_choice prompt valid ;;
  getitem valid choice.

(** The dicts of lines 238, 245 and 253. *)
Definition structure_choices : dict string :=
  [(1, "fence"); (2, "wall"); (3, "gate")]%Z.

Definition location_choices : dict string :=
  [(1, "adjacent"); (2, "not_adjacent")]%Z.

Definition height_choices : dict string :=
  [(1, "up_to_1m"); (2, "above_1m"); (3, "up_to_2m"); (4, "above_2m")]%Z.

Definition height_prompt : string :=
  "Enter the height category:" ++ newline
  ++ "1 for up_to_1m," ++ newline
  ++ "2 for above_1m," ++ newline
  ++ "3 for up_to_2m," ++ newline
  ++ "4 for above_2m: ".

(** Lines 187-285. *)
Definition prompt_user_for_input : IO unit :=
  print "Welcome to the PlanningHub Code Challenge!" ;;
  print ("Enter the details for the planning permission check." ++ newline) ;;
  listed_building <- get_yes_no "Is the property a Listed Building?" ;;
  article_2_3_land <-
    get_yes_no "Is it Article 2(3) Land (removing PD rights)?" ;;
  article_2_4_land <-
    get_yes_no "Is it Article 2(4) Land (removing PD rights)?" ;;
  article_4_directive <-
    get_yes_no
      "Is it covered by the Article 4 Directive (removing PD rights)?" ;;
  aonb <-
    get_yes_no
      "Is the property in an AONB (Area of Outstanding Natural Beauty)?" ;;
  works_affecting_tpo <-
    get_yes_no "Is it affected by a Tree Preservation Order (TPO)?" ;;
  face_listed_building <-
    get_yes_no
      "Does the enclosure face onto a property with a listed building? (2U9 condition)" ;;
  if Py.any [ listed_building; article_2_3_land; article_2_4_land;
              article_4_directive; aonb; works_affecting_tpo;
              face_listed_building ]
  then
    print (newline ++ "One or more universal conditions are met.") ;;
    print "Result: Planning permission is required (Y)."
  else
    structure_choice <-
      get_numeric_choice
        "Enter the structure type (1 for fence, 2 for wall, 3 for gate): "
        structure_choices ;;
    structure_type <- getitem structure_choices structure_choice ;;
    location_choice <-
      get_numeric_choice
        "Is the structure adjacent to a road/highway? (Enter 1 for adjacent, 2 for not adjacent): "
        location_choices ;;
    location_of_enclosure <- getitem location_choices location_choice ;;
    height_choice <- get_numeric_choice height_prompt height_choices ;;
    height_of_enclosure <- getitem height_choices height_choice ;;
    new_build_property <- get_yes_no "Is it a new build property?" ;;
    pd_removed_by_previous_planning <-
      get_yes_no
        "Have permitted development rights been removed with previous planning?" ;;
    let decision :=
      get_planning_permission_decision
        location_of_enclosure height_of_enclosure structure_type
        listed_building article_2_3_land article_2_4_land article_4_directive
        aonb works_affecting_tpo face_listed_building
        new_build_property pd_removed_by_previous_planning in
    print (newline ++ "Result: Planning permission required: " ++ decision).

(** ** Vocabulary of the statements about the front end *)

(** A line that [get_numeric_choice] accepts for the dict [d]. *)
Definition accepted {V} (d : dict V) (line : string) : bool :=
  match py_int line with
  | Some choice => contains d choice
  | None => false
  end.

(** What a rejected line costs: the prompt that asked for it and the error
    logged for it. *)
Definition rejection {V} (prompt_text : string) (d : dict V)
    (line : string) : list event :=
  [ Prompt prompt_text;
    LogError (match py_int line with
              | Some _ => "Invalid choice. Please enter one of: "
                          ++ str_of_int_list (keys d)
              | None => "Invalid input; please enter a number."
              end) ].

(** The lines [int] reads as a number. *)
Definition numeric_lines (stdin : list string) : list string :=
  filter (fun line => match py_int line with Some _ => true | None => false end)
         stdin.

(** What [get_yes_no] adds to its prompt (line 183). *)
Definition yes_no_suffix : string := " (Enter 1 for Yes, 2 for No): ".

(** The key a yes/no answer is entered with (line 182). *)
Definition yes_no_key (b : bool) : Z := if b then 1%Z else 2%Z.

(** The lines [lines] read as the numbers [ks], one by one. *)
Definition read_as (lines : list string) (ks : list Z) : Prop :=
  map py_int lines = map Some ks.

(** Whatever the input, [m] ends normally with a value in [Q], or fails
    with [EOFError] after reading every line. *)
Definition ensures {A} (m : IO A) (Q : A -> Prop) : Prop :=
  forall stdin,
    match m stdin with
    | (Ok a, _, _) => Q a
    | (Raise e, rest, _) => e = EOFError /\ rest = []
    end.

(** Dropping the lines that are not numbers changes neither the outcome of
    [m] nor what it prints, and leaves the numeric part of the same rest. *)
Definition ignores_non_numeric {A} (m : IO A) : Prop :=
  forall stdin,
    let '(r, rest, ev) := m stdin in
    let '(r', rest', ev') := m (numeric_lines stdin) in
    r' = r /\ rest' = numeric_lines rest /\ printed ev' = printed ev.

End WithInt.

(** The three lines a complete run can end with (lines 234, 285). *)
Definition result_lines : list string :=
  [ "Result: Planning permission is required (Y).";
    newline ++ "Result: Planning permission required: Y";
    newline ++ "Result: Planning permission required: N" ].

(** The last of [lines] is one of [allowed]. *)
Definition ends_in (allowed lines : list string) : Prop :=
  exists before line, lines = (before ++ [line])%list /\ In line allowed.

(** A reading of [int] on plain decimal numerals, used to run the program
    on sample input: digits, with an optional leading minus sign.  Python's
    [int] accepts more (surrounding blanks, a plus sign, underscores); the
    theorems hold for any reading. *)
Definition decimal_int (line : string) : option Z :=
  if (line =? "") || (line =? "-") then None
  else option_map Z.of_int (NilEmpty.int_of_string line).

End Cli.

(** The position of a height category in the menu of line 253. *)
Definition height_rank (h : string) : option Z :=
  option_map fst
    (find (fun kv => snd kv =? h) Cli.height_choices).

(** Splits on a comparison of a string against a literal. *)
Ltac case_eqb s lit :=
  destruct (String.eqb_spec s lit); subst; try discriminate; try congruence.

(** ** Sanity: the scenarios of the test suite *)

Example test_universal_listed_building :
  get_planning_permission_decision "adjacent" "up_to_1m" "fence"
    true false false false false false false false false = "Y".
Proof. reflexivity. Qed.

Example test_adjacent_fence_up_to_1m :
  get_planning_permission_decision "adjacent" "up_to_1m" "fence"
    false false false false false false false false false = "N".
Proof. reflexivity. Qed.

Example test_not_adjacent_fence_above_2m :
  get_planning_permission_decision "not_adjacent" "above_2m" "fence"
    false false false false false false false false false = "Y".
Proof. reflexivity. Qed.

Example test_wall_above_2m :
  get_planning_permission_decision "adjacent" "above_2m" "wall"
    false false false false false false false false false = "Y".
Proof. reflexivity. Qed.

Example test_gate_new_build :
  get_planning_permission_decision "adjacent" "up_to_1m" "gate"
    false false false false false false false true false = "Y".
Proof. reflexivity. Qed.

Example test_pd_removed_overrides_baseline :
  get_planning_permission_decision "adjacent" "up_to_1m" "fence"
    false false false false false false false false true = "Y".
Proof. reflexivity. Qed.

Example lower_mixed_case : Py.lower "FeNcE_42!" = "fence_42!".
Proof. reflexivity. Qed.

Example lower_latin1_sample :
  Py.lower_latin1 "ÉCOLE Ünïted ×3" = "école ünïted ×3"
  /\ Py.lower "ÉCOLE" = "École".
Proof. split; reflexivity. Qed.

(** ** Helper lemmas *)

Lemma any_universal_false lb a23 a24 a4 ao tpo flb :
  no_universal_flag lb a23 a24 a4 ao tpo flb ->
  Py.any (universal_flags lb a23 a24 a4 ao tpo flb) = false.
Proof.
  intros (-> & -> & -> & -> & -> & -> & ->). reflexivity.
Qed.

Lemma decision_after_stage1 loc h st lb a23 a24 a4 ao tpo flb nb pd :
  no_universal_flag lb a23 a24 a4 ao tpo flb ->
  get_planning_permission_decision loc h st lb a23 a24 a4 ao tpo flb nb pd
  = if pd then "Y" else baseline loc h st nb.
Proof.
  intros H. unfold get_planning_permission_decision.
  now rewrite (any_universal_false _ _ _ _ _ _ _ H).
Qed.

Lemma to_lower_idempotent c : Py.to_lower (Py.to_lower c) = Py.to_lower c.
Proof.
  destruct c as [[] [] [] [] [] [] [] []]; reflexivity.
Qed.

Lemma lower_idempotent s : Py.lower (Py.lower s) = Py.lower s.
Proof.
  induction s as [|c s IH]; simpl.
  - reflexivity.
  - now rewrite to_lower_idempotent, IH.
Qed.

Lemma baseline_Y_or_N loc h st nb :
  baseline loc h st nb = "Y" \/ baseline loc h st nb = "N".
Proof.
  unfold baseline.
  repeat match goal with
         | |- context [if ?b then _ else _] => destruct b
         end; auto.
Qed.

(** ** Stage 1 *)

(** C1: whenever at least one of the seven universal flags is true, the
    decision is "Y", whatever the structure type, location, height and the
    two modifier flags are. *)
Theorem universal_override loc h st lb a23 a24 a4 ao tpo flb nb pd :
  lb = true \/ a23 = true \/ a24 = true \/ a4 = true \/
  ao = true \/ tpo = true \/ flb = true ->
  get_planning_permission_decision loc h st lb a23 a24 a4 ao tpo flb nb pd
  = "Y".
Proof.
  intros H. unfold get_planning_permission_decision.
  replace (Py.any (universal_flags lb a23 a24 a4 ao tpo flb)) with true;
    [reflexivity|].
  symmetry. apply existsb_exists. exists true. split; [|reflexivity].
  unfold universal_flags; simpl.
  decompose [or] H; subst; tauto.
Qed.

Lemma universal_override_witness :
  get_planning_permission_decision "not_adjacent" "up_to_1m" "gate"
    false false false false false true false false false = "Y".
Proof.
  apply (universal_override "not_adjacent" "up_to_1m" "gate"
           false false false false false true false false false).
  do 5 right. left. reflexivity.
Defined.

(** ** Stage 3 *)

(** C2: with the seven universal flags false, a true
    [pd_removed_by_previous_planning] forces "Y" for every structure type,
    location, height and [new_build_property]; a false one leaves the
    stage-2 baseline as the result. *)
Theorem modifier_override loc h st lb a23 a24 a4 ao tpo flb nb :
  no_universal_flag lb a23 a24 a4 ao tpo flb ->
  get_planning_permission_decision loc h st lb a23 a24 a4 ao tpo flb nb true
  = "Y"
  /\ get_planning_permission_decision loc h st lb a23 a24 a4 ao tpo flb nb
       false
     = baseline loc h st nb.
Proof.
  intros H. split; rewrite decision_after_stage1 by exact H; reflexivity.
Qed.

Lemma modifier_override_witness :
  get_planning_permission_decision "adjacent" "up_to_1m" "fence"
    false false false false false false false false true = "Y"
  /\ get_planning_permission_decision "adjacent" "up_to_1m" "fence"
       false false false false false false false false false
     = baseline "adjacent" "up_to_1m" "fence" false.
Proof.
  apply (modifier_override "adjacent" "up_to_1m" "fence"
           false false false false false false false false).
  repeat split.
Defined.

(** ** Stage 2 *)

(** C3: a fence adjacent to the highway, no universal flag, PD rights not
    removed: "N" exactly for height "up_to_1m", and "Y" for each of
    "above_1m", "up_to_2m" and "above_2m". *)
Theorem fence_adjacent_rule h lb a23 a24 a4 ao tpo flb nb :
  no_universal_flag lb a23 a24 a4 ao tpo flb ->
  let decision height :=
    get_planning_permission_decision "adjacent" height "fence"
      lb a23 a24 a4 ao tpo flb nb false in
  (decision h = "N" <-> h = "up_to_1m")
  /\ decision "above_1m" = "Y"
  /\ decision "up_to_2m" = "Y"
  /\ decision "above_2m" = "Y".
Proof.
  intros H decision. subst decision; cbv beta.
  rewrite !decision_after_stage1 by exact H.
  repeat split; try reflexivity.
  - unfold baseline; simpl. case_eqb h "up_to_1m".
  - intros ->. reflexivity.
Qed.

Lemma fence_adjacent_rule_witness :
  (get_planning_permission_decision "adjacent" "up_to_2m" "fence"
     false false false false false false false true false = "N"
   <-> "up_to_2m" = "up_to_1m")
  /\ get_planning_permission_decision "adjacent" "above_1m" "fence"
       false false false false false false false true false = "Y"
  /\ get_planning_permission_decision "adjacent" "up_to_2m" "fence"
       false false false false false false false true false = "Y"
  /\ get_planning_permission_decision "adjacent" "above_2m" "fence"
       false false false false false false false true false = "Y".
Proof.
  apply (fence_adjacent_rule "up_to_2m"
           false false false false false false false true).
  repeat split.
Defined.

(** C4: with no universal flag and PD rights not removed, a fence that is
    "not_adjacent", and a wall at either location, need permission exactly
    for height "above_2m"; the three other categories give "N". *)
Theorem above_2m_rule loc h st lb a23 a24 a4 ao tpo flb nb :
  no_universal_flag lb a23 a24 a4 ao tpo flb ->
  (st = "fence" /\ loc = "not_adjacent")
  \/ (st = "wall" /\ (loc = "adjacent" \/ loc = "not_adjacent")) ->
  let decision height :=
    get_planning_permission_decision loc height st
      lb a23 a24 a4 ao tpo flb nb false in
  (decision h = "Y" <-> h = "above_2m")
  /\ decision "up_to_1m" = "N"
  /\ decision "above_1m" = "N"
  /\ decision "up_to_2m" = "N".
Proof.
  intros H Hst decision. subst decision; cbv beta.
  rewrite !decision_after_stage1 by exact H.
  assert (Hb : forall height,
             baseline loc height st nb
             = if height =? "above_2m" then "Y" else "N").
  { intros height.
    destruct Hst as [[-> ->] | [-> _]]; unfold baseline; reflexivity. }
  rewrite !Hb. repeat split; try reflexivity.
  - case_eqb h "above_2m".
  - intros ->. reflexivity.
Qed.

Lemma above_2m_rule_witness :
  (get_planning_permission_decision "adjacent" "above_2m" "wall"
     false false false false false false false true false = "Y"
   <-> "above_2m" = "above_2m")
  /\ get_planning_permission_decision "adjacent" "up_to_1m" "wall"
       false false false false false false false true false = "N"
  /\ get_planning_permission_decision "adjacent" "above_1m" "wall"
       false false false false false false false true false = "N"
  /\ get_planning_permission_decision "adjacent" "up_to_2m" "wall"
       false false false false false false false true false = "N".
Proof.
  apply (above_2m_rule "adjacent" "above_2m" "wall"
           false false false false false false false true).
  - repeat split.
  - right. split; [reflexivity | left; reflexivity].
Defined.

(** C5: a gate, no universal flag, PD rights not removed: "Y" exactly when
    [new_build_property] is true, and the result is the same for any two
    locations and any two heights. *)
Theorem gate_rule loc h loc' h' lb a23 a24 a4 ao tpo flb nb :
  no_universal_flag lb a23 a24 a4 ao tpo flb ->
  (get_planning_permission_decision loc h "gate"
     lb a23 a24 a4 ao tpo flb nb false = "Y" <-> nb = true)
  /\ get_planning_permission_decision loc h "gate"
       lb a23 a24 a4 ao tpo flb nb false
     = get_planning_permission_decision loc' h' "gate"
         lb a23 a24 a4 ao tpo flb nb false.
Proof.
  intros H. rewrite !decision_after_stage1 by exact H.
  unfold baseline; simpl. split; [|reflexivity].
  destruct nb; split; congruence.
Qed.

Lemma gate_rule_witness :
  (get_planning_permission_decision "adjacent" "above_2m" "gate"
     false false false false false false false true false = "Y"
   <-> true = true)
  /\ get_planning_permission_decision "adjacent" "above_2m" "gate"
       false false false false false false false true false
     = get_planning_permission_decision "not_adjacent" "up_to_1m" "gate"
         false false false false false false false true false.
Proof.
  apply (gate_rule "adjacent" "above_2m" "not_adjacent" "up_to_1m"
           false false false false false false false true).
  repeat split.
Defined.

(** ** Unrecognised structure types *)

(** C6, as stated, fails: "FENCE" is none of the three values "fence",
    "wall", "gate", no universal flag is set, and yet the baseline and the
    decision are "Y", because line 114 lowercases the structure type before
    the dispatch. *)
Lemma fallback_exact_match_counterexample :
  ~ In "FENCE" structure_choices
  /\ no_universal_flag false false false false false false false
  /\ baseline "adjacent" "above_2m" "FENCE" false = "Y"
  /\ get_planning_permission_decision "adjacent" "above_2m" "FENCE"
       false false false false false false false false false <> "N".
Proof.
  repeat split; try discriminate.
  unfold structure_choices; simpl.
  intros [H | [H | [H | []]]]; discriminate H.
Qed.

(** C6, amended: when the lowercased structure type is none of "fence",
    "wall", "gate" and no universal flag is set, the baseline is the fallback
    "N"; it is also the decision when PD rights were not removed. *)
Theorem fallback_unrecognized_structure
    loc h st lb a23 a24 a4 ao tpo flb nb :
  ~ In (Py.lower st) structure_choices ->
  no_universal_flag lb a23 a24 a4 ao tpo flb ->
  baseline loc h st nb = "N"
  /\ get_planning_permission_decision loc h st
       lb a23 a24 a4 ao tpo flb nb false = "N".
Proof.
  intros Hst H. rewrite decision_after_stage1 by exact H.
  assert (Hb : baseline loc h st nb = "N"); [|now split].
  unfold baseline; cbv zeta.
  destruct (String.eqb_spec (Py.lower st) "gate") as [E | _];
    [exfalso; apply Hst; rewrite E; simpl; tauto|].
  destruct (String.eqb_spec (Py.lower st) "fence") as [E | _];
    [exfalso; apply Hst; rewrite E; simpl; tauto|].
  destruct (String.eqb_spec (Py.lower st) "wall") as [E | _];
    [exfalso; apply Hst; rewrite E; simpl; tauto|].
  reflexivity.
Qed.

Lemma fallback_unrecognized_structure_witness :
  baseline "adjacent" "above_2m" "Shed" true = "N"
  /\ get_planning_permission_decision "adjacent" "above_2m" "Shed"
       false false false false false false false true false = "N".
Proof.
  apply (fallback_unrecognized_structure "adjacent" "above_2m" "Shed"
           false false false false false false false true).
  - unfold structure_choices; simpl.
    intros [H | [H | [H | []]]]; discriminate H.
  - repeat split.
Defined.

(** ** Totality *)

(** C7: on every input (any three strings, any nine booleans) the function
    yields a result, and the result is "Y" or "N".  Nothing in the body can
    raise on [str] and [bool] arguments, and [lower] recurses on the
    structure of its argument. *)
Theorem decision_total loc h st lb a23 a24 a4 ao tpo flb nb pd :
  get_planning_permission_decision loc h st lb a23 a24 a4 ao tpo flb nb pd
  = "Y"
  \/ get_planning_permission_decision loc h st lb a23 a24 a4 ao tpo flb nb pd
     = "N".
Proof.
  unfold get_planning_permission_decision.
  destruct (Py.any _); [now left|].
  destruct pd; [now left|].
  apply baseline_Y_or_N.
Qed.

(** ** Case and exact matching *)

Lemma is_ascii_to_lower c :
  Py.is_ascii_char (Py.to_lower c) = Py.is_ascii_char c.
Proof. destruct c as [[] [] [] [] [] [] [] []]; reflexivity. Qed.

Lemma is_ascii_lower s : Py.is_ascii (Py.lower s) = Py.is_ascii s.
Proof.
  induction s as [|c s IH]; simpl; [reflexivity|].
  now rewrite is_ascii_to_lower, IH.
Qed.

Lemma keyword_is_ascii kw :
  In kw structure_choices -> Py.is_ascii kw = true /\ Py.lower kw = kw.
Proof.
  intros [<- | [<- | [<- | []]]]; split; reflexivity.
Qed.

(** The tests of lines 116, 119 and 133 give the same answer with the ASCII
    case folding as with any function that has [str_lower_facts]. *)
Lemma keyword_tests_agree str_lower kw s :
  str_lower_facts str_lower ->
  In kw structure_choices ->
  str_lower s = kw <-> Py.lower s = kw.
Proof.
  intros HL Hkw. split; intros Hs.
  - assert (Ha : Py.is_ascii s = true).
    { apply (facts_keywords _ HL). now rewrite Hs. }
    now rewrite <- (facts_ascii _ HL s Ha).
  - assert (Ha : Py.is_ascii s = true).
    { rewrite <- is_ascii_lower, Hs. now apply keyword_is_ascii. }
    now rewrite (facts_ascii _ HL s Ha).
Qed.

Lemma baseline_of_lowered str_lower loc h st nb :
  str_lower_facts str_lower ->
  baseline loc h (str_lower st) nb = baseline loc h st nb.
Proof.
  intros HL.
  assert (E : forall kw, In kw structure_choices ->
                (Py.lower (str_lower st) =? kw) = (Py.lower st =? kw)).
  { intros kw Hkw. apply eq_true_iff_eq. rewrite !String.eqb_eq.
    rewrite <- (keyword_tests_agree str_lower kw (str_lower st) HL Hkw).
    rewrite (facts_idempotent _ HL).
    now apply keyword_tests_agree. }
  unfold baseline. cbv zeta.
  rewrite !E by (unfold structure_choices; simpl; tauto).
  reflexivity.
Qed.

Lemma ascii_lower_facts : str_lower_facts Py.lower.
Proof.
  split.
  - reflexivity.
  - apply lower_idempotent.
  - intros s Hs. rewrite <- is_ascii_lower. now apply keyword_is_ascii.
Qed.

Lemma lower_latin1_byte_ascii b c :
  Py.is_ascii_char c = true -> Py.lower_latin1_byte b c = Py.to_lower c.
Proof. destruct b, c as [[] [] [] [] [] [] [] []]; easy. Qed.

Lemma lower_latin1_byte_is_ascii b c :
  Py.is_ascii_char (Py.lower_latin1_byte b c) = Py.is_ascii_char c.
Proof. destruct b, c as [[] [] [] [] [] [] [] []]; reflexivity. Qed.

Lemma lower_latin1_byte_twice b c :
  Py.lower_latin1_byte b (Py.lower_latin1_byte b c)
  = Py.lower_latin1_byte b c
  /\ (N_of_ascii (Py.lower_latin1_byte b c) =? 195)%N
     = (N_of_ascii c =? 195)%N.
Proof. destruct b, c as [[] [] [] [] [] [] [] []]; split; reflexivity. Qed.

Lemma latin1_lower_facts : str_lower_facts Py.lower_latin1.
Proof.
  unfold Py.lower_latin1. split.
  - generalize false. intros b s. revert b.
    induction s as [|c s IH]; intros b; simpl; [reflexivity|].
    intros [Hc Hs]%andb_prop.
    now rewrite (lower_latin1_byte_ascii b c Hc), (IH _ Hs).
  - generalize false. intros b s. revert b.
    induction s as [|c s IH]; intros b; simpl; [reflexivity|].
    destruct (lower_latin1_byte_twice b c) as [-> ->]. now rewrite IH.
  - intros s Hs.
    assert (E : forall b t,
               Py.is_ascii (Py.lower_latin1_from b t) = Py.is_ascii t).
    { intros b t. revert b. induction t as [|c t IH]; intros b; simpl;
        [reflexivity|].
      now rewrite lower_latin1_byte_is_ascii, IH. }
    rewrite <- (E false). now apply keyword_is_ascii.
Qed.

(** C8: the structure type is matched without regard to case.  With
    [str_lower] standing for [str.lower()]: a request with structure type
    [s] gets the decision of the same request with [s.lower()]; a structure
    type that lowercases to "fence", "wall" or "gate" is decided by the
    fence, wall or gate rule, not by the fallback for unrecognised
    structures; and "FENCE", "Wall" and "Gate" lowercase to the three
    keywords and are decided like them. *)
Theorem structure_case_insensitive
    (str_lower : string -> string)
    loc h st lb a23 a24 a4 ao tpo flb nb pd :
  str_lower_facts str_lower ->
  let decision s :=
    get_planning_permission_decision loc h s lb a23 a24 a4 ao tpo flb nb pd
  in
  let dispatched s :=
    get_planning_permission_decision loc h s
      false false false false false false false nb false
  in
  decision st = decision (str_lower st)
  /\ (str_lower st = "fence" ->
      dispatched st
      = if loc =? "adjacent"
        then (if h =? "up_to_1m" then "N" else "Y")
        else (if h =? "above_2m" then "Y" else "N"))
  /\ (str_lower st = "wall" ->
      dispatched st = if h =? "above_2m" then "Y" else "N")
  /\ (str_lower st = "gate" ->
      dispatched st = if nb then "Y" else "N")
  /\ (str_lower "FENCE" = "fence" /\ decision "FENCE" = decision "fence")
  /\ (str_lower "Wall" = "wall" /\ decision "Wall" = decision "wall")
  /\ (str_lower "Gate" = "gate" /\ decision "Gate" = decision "gate").
Proof.
  intros HL decision dispatched. subst decision dispatched; cbv beta.
  assert (Hrule : forall kw, In kw structure_choices ->
                    str_lower st = kw -> Py.lower st = kw).
  { intros kw Hkw. now apply keyword_tests_agree. }
  split; [|split; [|split; [|split]]].
  - unfold get_planning_permission_decision.
    now rewrite (baseline_of_lowered str_lower loc h st nb HL).
  - intros Hst. apply Hrule in Hst; [|simpl; tauto].
    unfold get_planning_permission_decision, baseline. simpl.
    now rewrite Hst.
  - intros Hst. apply Hrule in Hst; [|simpl; tauto].
    unfold get_planning_permission_decision, baseline. simpl.
    now rewrite Hst.
  - intros Hst. apply Hrule in Hst; [|simpl; tauto].
    unfold get_planning_permission_decision, baseline. simpl.
    now rewrite Hst.
  - repeat split; try reflexivity;
      now rewrite (facts_ascii _ HL) by reflexivity.
Qed.

Lemma structure_case_insensitive_witness :
  let decision s :=
    get_planning_permission_decision "adjacent" "above_2m" s
      false false false false false false false true false
  in
  let dispatched s :=
    get_planning_permission_decision "adjacent" "above_2m" s
      false false false false false false false true false
  in
  decision "ÉCOLE" = decision (Py.lower_latin1 "ÉCOLE")
  /\ (Py.lower_latin1 "ÉCOLE" = "fence" ->
      dispatched "ÉCOLE"
      = if "adjacent" =? "adjacent"
        then (if "above_2m" =? "up_to_1m" then "N" else "Y")
        else (if "above_2m" =? "above_2m" then "Y" else "N"))
  /\ (Py.lower_latin1 "ÉCOLE" = "wall" ->
      dispatched "ÉCOLE" = if "above_2m" =? "above_2m" then "Y" else "N")
  /\ (Py.lower_latin1 "ÉCOLE" = "gate" ->
      dispatched "ÉCOLE" = if true then "Y" else "N")
  /\ (Py.lower_latin1 "FENCE" = "fence"
      /\ decision "FENCE" = decision "fence")
  /\ (Py.lower_latin1 "Wall" = "wall" /\ decision "Wall" = decision "wall")
  /\ (Py.lower_latin1 "Gate" = "gate" /\ decision "Gate" = decision "gate").
Proof.
  apply (structure_case_insensitive Py.lower_latin1
           "adjacent" "above_2m" "ÉCOLE"
           false false false false false false false true false).
  exact latin1_lower_facts.
Defined.

(** C9: for a fence (in any letter case) and no universal flag, every
    location other than the exact string "adjacent" is handled by the
    not-adjacent branch: the baseline is "Y" exactly for height "above_2m",
    and so is the decision when PD rights were not removed. *)
Theorem location_exact_match loc h st lb a23 a24 a4 ao tpo flb nb :
  Py.lower st = "fence" ->
  loc <> "adjacent" ->
  no_universal_flag lb a23 a24 a4 ao tpo flb ->
  (baseline loc h st nb = "Y" <-> h = "above_2m")
  /\ (get_planning_permission_decision loc h st
        lb a23 a24 a4 ao tpo flb nb false = "Y" <-> h = "above_2m").
Proof.
  intros Hst Hloc H. rewrite decision_after_stage1 by exact H.
  assert (Hb : baseline loc h st nb
               = if h =? "above_2m" then "Y" else "N").
  { unfold baseline. rewrite Hst; simpl.
    case_eqb loc "adjacent". }
  rewrite Hb. case_eqb h "above_2m"; split; split; congruence.
Qed.

Lemma location_exact_match_witness :
  (baseline "Adjacent" "above_1m" "fence" true = "Y"
   <-> "above_1m" = "above_2m")
  /\ (get_planning_permission_decision "Adjacent" "above_1m" "fence"
        false false false false false false false true false = "Y"
      <-> "above_1m" = "above_2m").
Proof.
  apply (location_exact_match "Adjacent" "above_1m" "fence"
           false false false false false false false true).
  - reflexivity.
  - discriminate.
  - repeat split.
Defined.

(** ** Independence from the new-build flag *)

(** C10: for a fence or a wall, two requests that differ only in
    [new_build_property] get the same decision. *)
Theorem new_build_irrelevant
    loc h st lb a23 a24 a4 ao tpo flb nb nb' pd :
  st = "fence" \/ st = "wall" ->
  get_planning_permission_decision loc h st lb a23 a24 a4 ao tpo flb nb pd
  = get_planning_permission_decision loc h st lb a23 a24 a4 ao tpo flb nb' pd.
Proof.
  intros [-> | ->]; reflexivity.
Qed.

Lemma new_build_irrelevant_witness :
  get_planning_permission_decision "not_adjacent" "above_2m" "wall"
    false false false false false false false true false
  = get_planning_permission_decision "not_adjacent" "above_2m" "wall"
      false false false false false false false false false.
Proof.
  apply (new_build_irrelevant "not_adjacent" "above_2m" "wall"
           false false false false false false false true false false).
  right. reflexivity.
Defined.

(** ** The interactive front end *)

Section FrontEnd.

Variable py_int : string -> option Z.

Abbreviation get_numeric_choice := (Cli.get_numeric_choice py_int).
Abbreviation accepted := (Cli.accepted py_int).
Abbreviation rejection := (Cli.rejection py_int).

Lemma contains_In {V} (d : Cli.dict V) k :
  Cli.contains d k = true <-> In k (Cli.keys d).
Proof.
  unfold Cli.contains. rewrite existsb_exists. split.
  - intros (k' & Hin & Heq). apply Z.eqb_eq in Heq. now subst.
  - intros Hin. exists k. split; [exact Hin | apply Z.eqb_refl].
Qed.

Lemma accepted_reads {V} (d : Cli.dict V) line k :
  py_int line = Some k -> accepted d line = Cli.contains d k.
Proof. unfold Cli.accepted. now intros ->. Qed.

(** One turn of the loop on a line that is turned down. *)
Lemma get_numeric_choice_reject {V} p (d : Cli.dict V) line stdin :
  accepted d line = false ->
  get_numeric_choice p d (line :: stdin)
  = let '(r, rest, ev) := get_numeric_choice p d stdin in
    (r, rest, (rejection p d line ++ ev)%list).
Proof.
  unfold Cli.accepted, Cli.rejection. simpl.
  destruct (py_int line) as [k|]; [intros ->|intros _];
    destruct (get_numeric_choice p d stdin) as [[r rest] ev]; reflexivity.
Qed.

(** One turn of the loop on a line that is taken. *)
Lemma get_numeric_choice_accept {V} p (d : Cli.dict V) line k stdin :
  py_int line = Some k ->
  Cli.contains d k = true ->
  get_numeric_choice p d (line :: stdin) = (Cli.Ok k, stdin, [Cli.Prompt p]).
Proof. simpl. now intros -> ->. Qed.

(** X1: the loop skips every line it turns down (not a number, or a number
    that is not a key), returns the number of the first line it accepts,
    leaves the lines after it unread, and has prompted once per line read
    and logged one error per line turned down. *)
Theorem get_numeric_choice_first_accepted
    {V} p (d : Cli.dict V) bad line k rest :
  Forall (fun l => accepted d l = false) bad ->
  py_int line = Some k ->
  In k (Cli.keys d) ->
  get_numeric_choice p d (bad ++ line :: rest)%list
  = (Cli.Ok k, rest,
     (flat_map (rejection p d) bad ++ [Cli.Prompt p])%list).
Proof.
  intros Hbad Hline Hk. induction Hbad as [|l bad Hl _ IH].
  - apply get_numeric_choice_accept; [exact Hline | now apply contains_In].
  - cbn [app flat_map]. rewrite get_numeric_choice_reject by exact Hl.
    rewrite IH. now rewrite <- app_assoc.
Qed.

(** X2: when the loop returns, the number is a key of the dict, it is what
    [int] read from the line just before the unread rest, and every line
    before that one was turned down. *)
Theorem get_numeric_choice_returns_key
    {V} p (d : Cli.dict V) stdin k rest ev :
  get_numeric_choice p d stdin = (Cli.Ok k, rest, ev) ->
  In k (Cli.keys d)
  /\ exists bad line,
       stdin = (bad ++ line :: rest)%list
       /\ py_int line = Some k
       /\ Forall (fun l => accepted d l = false) bad.
Proof.
  revert ev. induction stdin as [|l stdin IH]; intros ev; [discriminate|].
  destruct (accepted d l) eqn:Hacc.
  - unfold Cli.accepted in Hacc.
    destruct (py_int l) as [k'|] eqn:Hl; [|discriminate].
    rewrite (get_numeric_choice_accept p d l k' stdin Hl Hacc).
    intros [= <- <- _]. split; [now apply contains_In|].
    exists [], l. now repeat split.
  - rewrite get_numeric_choice_reject by exact Hacc.
    destruct (get_numeric_choice p d stdin) as [[r rest'] ev'] eqn:Hrun.
    intros [= -> -> _].
    destruct (IH ev' eq_refl) as (Hk & bad & line & -> & Hline & Hbad).
    split; [exact Hk|].
    exists (l :: bad), line. repeat split; [exact Hline|].
    now constructor.
Qed.

(** X3: the loop fails exactly when no line left is acceptable: it then
    has read and turned down every line, and the exception is the [EOFError]
    of [input]. *)
Theorem get_numeric_choice_eof {V} p (d : Cli.dict V) stdin :
  (Forall (fun l => accepted d l = false) stdin ->
   get_numeric_choice p d stdin
   = (Cli.Raise Cli.EOFError, [],
      (flat_map (rejection p d) stdin ++ [Cli.Prompt p])%list))
  /\ (forall e rest ev,
        get_numeric_choice p d stdin = (Cli.Raise e, rest, ev) ->
        Forall (fun l => accepted d l = false) stdin).
Proof.
  split.
  - induction 1 as [|l stdin Hl _ IH]; [reflexivity|].
    rewrite get_numeric_choice_reject by exact Hl. rewrite IH.
    cbn [flat_map]. now rewrite <- app_assoc.
  - induction stdin as [|l stdin IH]; intros e rest ev Hrun; [constructor|].
    destruct (accepted d l) eqn:Hacc.
    + unfold Cli.accepted in Hacc.
      destruct (py_int l) as [k|] eqn:Hl; [|discriminate].
      now rewrite (get_numeric_choice_accept p d l k stdin Hl Hacc) in Hrun.
    + constructor; [exact Hacc|].
      rewrite get_numeric_choice_reject in Hrun by exact Hacc.
      destruct (get_numeric_choice p d stdin) as [[r rest'] ev'].
      injection Hrun as -> _ _. now apply (IH e rest' ev').
Qed.

(** X4: in every run of the loop, successful or not, the prompts are one
    more than the logged errors, and the lines read are as many as the errors
    logged, plus the accepted one if the loop returned. *)
Theorem get_numeric_choice_accounting {V} p (d : Cli.dict V) stdin :
  let '(r, rest, ev) := get_numeric_choice p d stdin in
  Cli.prompts ev = S (Cli.logged_errors ev)
  /\ List.length stdin
     = (Cli.logged_errors ev
        + (match r with Cli.Ok _ => 1 | Cli.Raise _ => 0 end)
        + List.length rest)%nat.
Proof.
  induction stdin as [|l stdin IH]; [now split|].
  destruct (accepted d l) eqn:Hacc.
  - unfold Cli.accepted in Hacc.
    destruct (py_int l) as [k|] eqn:Hl; [|discriminate].
    rewrite (get_numeric_choice_accept p d l k stdin Hl Hacc). now split.
  - rewrite get_numeric_choice_reject by exact Hacc.
    destruct (get_numeric_choice p d stdin) as [[r rest] ev].
    destruct IH as [IHp IHn].
    unfold Cli.prompts, Cli.logged_errors in *. cbn. split; lia.
Qed.

(** *** Yes/no questions *)

Abbreviation get_yes_no := (Cli.get_yes_no py_int).

Lemma accepted_yes_no line :
  accepted [(1, true); (2, false)]%Z line = false
  <-> py_int line <> Some 1%Z /\ py_int line <> Some 2%Z.
Proof.
  unfold Cli.accepted, Cli.contains. cbn.
  destruct (py_int line) as [k|]; [|now intuition].
  destruct (Z.eqb_spec k 1); [subst; cbn; intuition congruence|].
  destruct (Z.eqb_spec k 2); [subst; cbn; intuition congruence|].
  cbn. intuition congruence.
Qed.

Lemma get_yes_no_accept p line b stdin :
  py_int line = Some (Cli.yes_no_key b) ->
  get_yes_no p (line :: stdin)
  = (Cli.Ok b, stdin, [Cli.Prompt (p ++ Cli.yes_no_suffix)]).
Proof.
  intros Hl. unfold Cli.get_yes_no, Cli.bind.
  rewrite (get_numeric_choice_accept _ _ _ _ _ Hl) by now destruct b.
  now destruct b.
Qed.

Lemma get_yes_no_reject p line stdin :
  accepted [(1, true); (2, false)]%Z line = false ->
  get_yes_no p (line :: stdin)
  = let '(r, rest, ev) := get_yes_no p stdin in
    (r, rest,
     (rejection (p ++ Cli.yes_no_suffix) [(1, true); (2, false)]%Z line
      ++ ev)%list).
Proof.
  intros Hl. unfold Cli.get_yes_no, Cli.bind.
  rewrite get_numeric_choice_reject by exact Hl.
  destruct (Cli.get_numeric_choice _ _ _ stdin) as [[[k|e] rest] ev];
    [|reflexivity].
  destruct (Cli.getitem _ k rest) as [[r rest'] ev']. cbv zeta.
  now rewrite app_assoc.
Qed.

(** X5: [get_yes_no] answers [True] exactly when the first line that reads
    as 1 or 2 reads as 1, and [False] exactly when it reads as 2; the lines
    after that one are left unread. *)
Theorem get_yes_no_first_answer p stdin b rest :
  (exists ev, get_yes_no p stdin = (Cli.Ok b, rest, ev))
  <-> exists bad line,
        stdin = (bad ++ line :: rest)%list
        /\ py_int line = Some (Cli.yes_no_key b)
        /\ Forall (fun l => py_int l <> Some 1%Z /\ py_int l <> Some 2%Z) bad.
Proof.
  split.
  - induction stdin as [|l stdin IH]; intros [ev Hrun]; [discriminate|].
    destruct (accepted [(1, true); (2, false)]%Z l) eqn:Hacc.
    + assert (Hl : exists b', py_int l = Some (Cli.yes_no_key b')).
      { unfold Cli.accepted, Cli.contains in Hacc. cbn in Hacc.
        destruct (py_int l) as [k|]; [|discriminate].
        destruct (Z.eqb_spec k 1); [subst; now exists true|].
        destruct (Z.eqb_spec k 2); [subst; now exists false|].
        discriminate. }
      destruct Hl as [b' Hl]. rewrite (get_yes_no_accept p l b' stdin Hl) in Hrun.
      injection Hrun as -> -> _. exists [], l. now repeat split.
    + rewrite get_yes_no_reject in Hrun by exact Hacc.
      destruct (get_yes_no p stdin) as [[r rest'] ev'] eqn:Hrec.
      injection Hrun as -> -> _.
      destruct IH as (bad & line & -> & Hline & Hbad); [now exists ev'|].
      exists (l :: bad), line. repeat split; [exact Hline|].
      constructor; [now apply accepted_yes_no | exact Hbad].
  - intros (bad & line & -> & Hline & Hbad).
    induction Hbad as [|l bad Hl _ IH].
    + eexists. now apply get_yes_no_accept.
    + destruct IH as [ev IH]. cbn [app].
      rewrite get_yes_no_reject by now apply accepted_yes_no.
      rewrite IH. now eexists.
Qed.

(** *** The only failure is running out of input *)

Lemma ensures_ret {A} (a : A) (Q : A -> Prop) : Q a -> Cli.ensures (Cli.ret a) Q.
Proof. intros H stdin. exact H. Qed.

Lemma ensures_print text : Cli.ensures (Cli.print text) (fun _ => True).
Proof. intros stdin. exact I. Qed.

Lemma ensures_bind {A B} (m : Cli.IO A) (k : A -> Cli.IO B) Q R :
  Cli.ensures m Q ->
  (forall a, Q a -> Cli.ensures (k a) R) ->
  Cli.ensures (Cli.bind m k) R.
Proof.
  intros Hm Hk stdin. unfold Cli.bind. specialize (Hm stdin).
  destruct (m stdin) as [[[a|e] rest] ev]; [|exact Hm].
  specialize (Hk a Hm rest).
  destruct (k a rest) as [[[b|e] rest'] ev']; exact Hk.
Qed.

Lemma ensures_get_numeric_choice {V} p (d : Cli.dict V) :
  Cli.ensures (get_numeric_choice p d) (fun k => In k (Cli.keys d)).
Proof.
  intros stdin. induction stdin as [|l stdin IH]; [now split|].
  destruct (accepted d l) eqn:Hacc.
  - unfold Cli.accepted in Hacc.
    destruct (py_int l) as [k|] eqn:Hl; [|discriminate].
    rewrite (get_numeric_choice_accept p d l k stdin Hl Hacc).
    now apply contains_In.
  - rewrite get_numeric_choice_reject by exact Hacc.
    destruct (get_numeric_choice p d stdin) as [[[k|e] rest] ev]; exact IH.
Qed.

Lemma ensures_getitem {V} (d : Cli.dict V) k :
  In k (Cli.keys d) -> Cli.ensures (Cli.getitem d k) (fun v => In (k, v) d).
Proof.
  induction d as [|[k' v] d IH]; intros Hk stdin; [contradiction|].
  cbn [Cli.getitem]. destruct (Z.eqb_spec k k') as [->|Hne].
  - now left.
  - destruct Hk as [Hk|Hk]; [cbn in Hk; congruence|].
    specialize (IH Hk stdin).
    destruct (Cli.getitem d k stdin) as [[[v'|e] rest] ev]; [now right|exact IH].
Qed.

Lemma ensures_weaken {A} (m : Cli.IO A) (Q R : A -> Prop) :
  Cli.ensures m Q -> (forall a, Q a -> R a) -> Cli.ensures m R.
Proof.
  intros Hm HQR stdin. specialize (Hm stdin).
  destruct (m stdin) as [[[a|e] rest] ev]; auto.
Qed.

Lemma ensures_get_yes_no p : Cli.ensures (get_yes_no p) (fun _ => True).
Proof.
  unfold Cli.get_yes_no.
  eapply ensures_bind; [apply ensures_get_numeric_choice|].
  intros k Hk. eapply ensures_weaken; [now apply ensures_getitem|easy].
Qed.

(** X6: whatever is typed, the program never fails on a dict lookup: a run
    that does not complete ends with [EOFError], after every line of the
    input has been read. *)
Theorem prompt_user_for_input_fails_only_at_eof stdin e rest ev :
  Cli.prompt_user_for_input py_int stdin = (Cli.Raise e, rest, ev) ->
  e = Cli.EOFError /\ rest = [].
Proof.
  assert (H : Cli.ensures (Cli.prompt_user_for_input py_int) (fun _ => True)).
  { unfold Cli.prompt_user_for_input.
    do 2 (eapply ensures_bind; [apply ensures_print|intros _ _]).
    do 7 (eapply ensures_bind; [apply ensures_get_yes_no|intros ? _]).
    destruct (Py.any _).
    - eapply ensures_bind; [apply ensures_print|intros _ _].
      apply ensures_print.
    - do 3 (eapply ensures_bind; [apply ensures_get_numeric_choice|];
            intros ? ?;
            eapply ensures_bind; [now apply ensures_getitem|intros ? _]).
      do 2 (eapply ensures_bind; [apply ensures_get_yes_no|intros ? _]).
      apply ensures_print. }
  intros Hrun. specialize (H stdin). now rewrite Hrun in H.
Qed.

(** *** Runs of the whole program *)

Abbreviation prompt_user_for_input := (Cli.prompt_user_for_input py_int).

(** Turns [read_as lines [k1; ...; kn]] into one equation per line. *)
Ltac split_lines H lines :=
  unfold Cli.read_as in H;
  repeat (destruct lines as [|? lines]; [discriminate H|]);
  cbn [map] in H; injection H; clear H; intros;
  match goal with
  | Hnil : map _ lines = [] |- _ =>
      destruct lines; [clear Hnil | discriminate Hnil]
  end.

(** Runs the program over lines whose reading is among the hypotheses. *)
Ltac run_questions :=
  repeat first
    [ erewrite get_yes_no_accept by eassumption
    | rewrite (get_yes_no_accept _ _ false) by assumption
    | rewrite (get_yes_no_accept _ _ true) by assumption
    | erewrite get_numeric_choice_accept by (eassumption || reflexivity)
    | progress cbv beta match zeta delta [Cli.print Cli.ret]
    | progress cbn [Cli.getitem Cli.structure_choices Cli.location_choices
                    Cli.height_choices Z.eqb Pos.eqb Cli.ret] ].


(** X8: when the seven universal questions are answered no and the five
    other questions are answered with keys of their menus, the program reads
    those twelve lines and prints the decision of
    [get_planning_permission_decision] for the chosen menu entries. *)
Theorem prompt_user_for_input_decision
    ks kl kh st loc h nb pd lines rest :
  In (ks, st) Cli.structure_choices ->
  In (kl, loc) Cli.location_choices ->
  In (kh, h) Cli.height_choices ->
  Cli.read_as py_int lines
    (map Cli.yes_no_key [false; false; false; false; false; false; false]
     ++ [ks; kl; kh; Cli.yes_no_key nb; Cli.yes_no_key pd]) ->
  let '(r, rest', ev) := prompt_user_for_input (lines ++ rest)%list in
  r = Cli.Ok tt
  /\ rest' = rest
  /\ Cli.logged_errors ev = 0
  /\ Cli.printed ev
     = [ "Welcome to the PlanningHub Code Challenge!";
         "Enter the details for the planning permission check."
         ++ Cli.newline;
         Cli.newline ++ "Result: Planning permission required: "
         ++ get_planning_permission_decision loc h st
              false false false false false false false nb pd ].
Proof.
  intros Hst Hloc Hh Hread. cbn [map app] in Hread.
  split_lines Hread lines.
  unfold Cli.prompt_user_for_input, Cli.bind. cbn [app].
  run_questions. cbn [Py.any existsb orb].
  cbn in Hst, Hloc, Hh.
  repeat match goal with
         | H : _ \/ _ |- _ => destruct H as [H|H]
         | H : (_, _) = (_, _) |- _ => injection H as <- <-
         | H : False |- _ => destruct H
         end;
    run_questions; now repeat split.
Qed.

(** *** Lines that are not numbers *)

Abbreviation numeric_lines := (Cli.numeric_lines py_int).
Abbreviation ignores_non_numeric := (Cli.ignores_non_numeric py_int).

Lemma printed_app ev ev' :
  Cli.printed (ev ++ ev') = (Cli.printed ev ++ Cli.printed ev')%list.
Proof. apply flat_map_app. Qed.

Lemma ignores_ret {A} (a : A) : ignores_non_numeric (Cli.ret a).
Proof. intros stdin. now repeat split. Qed.

Lemma ignores_print text : ignores_non_numeric (Cli.print text).
Proof. intros stdin. now repeat split. Qed.

Lemma ignores_bind {A B} (m : Cli.IO A) (k : A -> Cli.IO B) :
  ignores_non_numeric m ->
  (forall a, ignores_non_numeric (k a)) ->
  ignores_non_numeric (Cli.bind m k).
Proof.
  intros Hm Hk stdin. unfold Cli.bind. specialize (Hm stdin).
  destruct (m stdin) as [[r rest] ev].
  destruct (m (numeric_lines stdin)) as [[r' rest'] ev'].
  destruct Hm as (-> & -> & Hev).
  destruct r as [a|e]; [|now repeat split].
  specialize (Hk a rest).
  destruct (k a rest) as [[r1 rest1] ev1].
  destruct (k a (numeric_lines rest)) as [[r1' rest1'] ev1'].
  destruct Hk as (-> & -> & Hev1).
  repeat split. rewrite !printed_app. now rewrite Hev, Hev1.
Qed.

Lemma ignores_get_numeric_choice {V} p (d : Cli.dict V) :
  ignores_non_numeric (get_numeric_choice p d).
Proof.
  intros stdin. induction stdin as [|l stdin IH]; [now repeat split|].
  cbn [Cli.numeric_lines filter Cli.get_numeric_choice].
  fold (numeric_lines stdin).
  destruct (py_int l) as [k|] eqn:Hl.
  - cbn [Cli.get_numeric_choice]. rewrite Hl.
    destruct (Cli.contains d k); [now repeat split|].
    destruct (get_numeric_choice p d stdin) as [[r rest] ev].
    destruct (get_numeric_choice p d (numeric_lines stdin))
      as [[r' rest'] ev'].
    exact IH.
  - destruct (get_numeric_choice p d stdin) as [[r rest] ev].
    destruct (get_numeric_choice p d (numeric_lines stdin))
      as [[r' rest'] ev'].
    exact IH.
Qed.

Lemma ignores_getitem {V} (d : Cli.dict V) k :
  ignores_non_numeric (Cli.getitem d k).
Proof.
  induction d as [|[k' v] d IH]; cbn [Cli.getitem].
  - intros stdin. now repeat split.
  - destruct (k =? k')%Z; [apply ignores_ret | exact IH].
Qed.

Lemma ignores_get_yes_no p : ignores_non_numeric (get_yes_no p).
Proof.
  unfold Cli.get_yes_no.
  apply ignores_bind; [apply ignores_get_numeric_choice|].
  intros k. apply ignores_getitem.
Qed.

(** X9: lines that [int] cannot read never matter: with such lines removed
    from the input, wherever they stood, the program ends the same way
    (completes or runs out of input), prints the same lines, and leaves the
    same numeric lines unread. *)
Theorem prompt_user_for_input_ignores_non_numeric stdin :
  let '(r, rest, ev) := prompt_user_for_input stdin in
  let '(r', rest', ev') := prompt_user_for_input (numeric_lines stdin) in
  r' = r /\ rest' = numeric_lines rest /\ Cli.printed ev' = Cli.printed ev.
Proof.
  revert stdin. change (ignores_non_numeric prompt_user_for_input).
  unfold Cli.prompt_user_for_input.
  do 2 (apply ignores_bind; [apply ignores_print|intros _]).
  do 7 (apply ignores_bind; [apply ignores_get_yes_no|intros ?]).
  destruct (Py.any _).
  - apply ignores_bind; [apply ignores_print|intros _].
    apply ignores_print.
  - do 3 (apply ignores_bind; [apply ignores_get_numeric_choice|intros ?];
          apply ignores_bind; [apply ignores_getitem|intros ?]).
    do 2 (apply ignores_bind; [apply ignores_get_yes_no|intros ?]).
    apply ignores_print.
Qed.

(** *** What a complete run prints last *)

Lemma decision_in_Y_N loc h st lb a23 a24 a4 ao tpo flb nb pd :
  In (get_planning_permission_decision loc h st lb a23 a24 a4 ao tpo flb
        nb pd)
     ["Y"; "N"].
Proof.
  unfold get_planning_permission_decision.
  destruct (Py.any _); [now left|]. destruct pd; [now left|].
  destruct (baseline_Y_or_N loc h st nb) as [-> | ->]; cbn; tauto.
Qed.

Lemma bind_ends_in {A B} (m : Cli.IO A) (k : A -> Cli.IO B) allowed :
  (forall a stdin b rest ev,
      k a stdin = (Cli.Ok b, rest, ev) ->
      Cli.ends_in allowed (Cli.printed ev)) ->
  forall stdin b rest ev,
    Cli.bind m k stdin = (Cli.Ok b, rest, ev) ->
    Cli.ends_in allowed (Cli.printed ev).
Proof.
  intros Hk stdin b rest ev. unfold Cli.bind.
  destruct (m stdin) as [[[a|e] rest0] ev0]; [|discriminate].
  destruct (k a rest0) as [[r1 rest1] ev1] eqn:Hrun.
  intros [= -> -> <-].
  destruct (Hk _ _ _ _ _ Hrun) as (before & line & Hev & Hin).
  exists (Cli.printed ev0 ++ before)%list, line.
  split; [|exact Hin]. now rewrite printed_app, Hev, app_assoc.
Qed.

Lemma print_ends_in text allowed stdin b rest ev :
  In text allowed ->
  Cli.print text stdin = (Cli.Ok b, rest, ev) ->
  Cli.ends_in allowed (Cli.printed ev).
Proof.
  intros Hin [= _ _ <-]. now exists [], text.
Qed.

(** X13: whatever is typed, a run that completes ends by printing a result
    line: the universal-condition result, or the decision "Y" or "N". *)
Theorem prompt_user_for_input_prints_result stdin rest ev :
  prompt_user_for_input stdin = (Cli.Ok tt, rest, ev) ->
  Cli.ends_in Cli.result_lines (Cli.printed ev).
Proof.
  revert stdin rest ev.
  enough (H : forall stdin b rest ev,
             prompt_user_for_input stdin = (Cli.Ok b, rest, ev) ->
             Cli.ends_in Cli.result_lines (Cli.printed ev))
    by (intros stdin rest ev; apply H).
  unfold Cli.prompt_user_for_input.
  do 9 (apply bind_ends_in; intros ?).
  destruct (Py.any _).
  - apply bind_ends_in. intros _ stdin b rest ev.
    apply print_ends_in. cbn. tauto.
  - do 8 (apply bind_ends_in; intros ?).
    intros stdin b rest ev. apply print_ends_in.
    match goal with
    | |- In (_ ++ _ ++ ?d) _ =>
        pose proof (decision_in_Y_N _ _ _ _ _ _ _ _ _ _ _ _ : In d _) as Hd;
        destruct Hd as [<- | [<- | []]]; cbn; tauto
    end.
Qed.

End FrontEnd.

(** ** Monotonicity of the decision *)

Lemma baseline_new_build_monotone loc h st nb x :
  baseline loc h st nb = "Y" -> baseline loc h st (nb || x) = "Y".
Proof.
  destruct nb; [easy|]. destruct x; [|easy]. cbn [orb].
  unfold baseline. destruct (Py.lower st =? "gate"); easy.
Qed.

(** X10: setting further flags can only add a requirement: if permission is
    required for a request, it is still required after any of the nine flags
    is switched from false to true. *)
Theorem decision_monotone_in_flags
    loc h st lb a23 a24 a4 ao tpo flb nb pd x1 x2 x3 x4 x5 x6 x7 x8 x9 :
  get_planning_permission_decision loc h st lb a23 a24 a4 ao tpo flb nb pd
  = "Y" ->
  get_planning_permission_decision loc h st
    (lb || x1) (a23 || x2) (a24 || x3) (a4 || x4) (ao || x5) (tpo || x6)
    (flb || x7) (nb || x8) (pd || x9)
  = "Y".
Proof.
  intros HY. unfold get_planning_permission_decision in *.
  destruct (Py.any (universal_flags (lb || x1) _ _ _ _ _ _)) eqn:Hany;
    [reflexivity|].
  unfold Py.any, universal_flags in Hany. cbn [existsb] in Hany.
  repeat match type of Hany with
         | (_ || _ = false)%bool =>
             apply orb_false_elim in Hany;
             let H := fresh "H" in destruct Hany as [H Hany];
             try (apply orb_false_elim in H; destruct H as [-> ->])
         end.
  cbn in HY. destruct pd; [reflexivity|]. destruct x9; [reflexivity|].
  cbn [orb]. now apply baseline_new_build_monotone.
Qed.

Lemma decision_monotone_in_flags_witness :
  get_planning_permission_decision "not_adjacent" "above_2m" "fence"
    (false || false) (false || true) (false || false) (false || false)
    (false || false) (false || false) (false || false) (false || true)
    (false || false)
  = "Y".
Proof.
  apply (decision_monotone_in_flags "not_adjacent" "above_2m" "fence"
           false false false false false false false false false
           false true false false false false false true false).
  reflexivity.
Defined.

Lemma height_rank_cases h r :
  height_rank h = Some r ->
  (h = "up_to_1m" /\ r = 1%Z) \/ (h = "above_1m" /\ r = 2%Z)
  \/ (h = "up_to_2m" /\ r = 3%Z) \/ (h = "above_2m" /\ r = 4%Z).
Proof.
  unfold height_rank, Cli.height_choices. cbn [find snd fst option_map].
  destruct (String.eqb_spec "up_to_1m" h) as [<-|_]; [intros [= <-]; tauto|].
  destruct (String.eqb_spec "above_1m" h) as [<-|_]; [intros [= <-]; tauto|].
  destruct (String.eqb_spec "up_to_2m" h) as [<-|_]; [intros [= <-]; tauto|].
  destruct (String.eqb_spec "above_2m" h) as [<-|_]; [intros [= <-]; tauto|].
  discriminate.
Qed.

(** X11: the decision is monotone in the height category, in the order of
    the menu (up_to_1m, above_1m, up_to_2m, above_2m): if permission is
    required at one category, it is required at every later one, all else
    equal. *)
Theorem decision_monotone_in_height
    loc h h' r r' st lb a23 a24 a4 ao tpo flb nb pd :
  height_rank h = Some r ->
  height_rank h' = Some r' ->
  (r <= r')%Z ->
  get_planning_permission_decision loc h st lb a23 a24 a4 ao tpo flb nb pd
  = "Y" ->
  get_planning_permission_decision loc h' st lb a23 a24 a4 ao tpo flb nb pd
  = "Y".
Proof.
  intros Hr Hr' Hle. unfold get_planning_permission_decision.
  destruct (Py.any _); [easy|]. destruct pd; [easy|].
  unfold baseline.
  destruct (Py.lower st =? "gate"); [easy|].
  apply height_rank_cases in Hr, Hr'.
  destruct Hr as [[-> ->]|[[-> ->]|[[-> ->]|[-> ->]]]];
    destruct Hr' as [[-> ->]|[[-> ->]|[[-> ->]|[-> ->]]]];
    try lia;
    destruct (Py.lower st =? "fence"), (loc =? "adjacent"),
      (Py.lower st =? "wall"); easy.
Qed.

Lemma decision_monotone_in_height_witness :
  get_planning_permission_decision "adjacent" "up_to_2m" "fence"
    false false false false false false false false false
  = "Y".
Proof.
  apply (decision_monotone_in_height "adjacent" "above_1m" "up_to_2m" 2 3
           "fence" false false false false false false false false false);
    [reflexivity | reflexivity | lia | reflexivity].
Defined.

(** X12: an enclosure next to the highway is never treated more leniently:
    if permission is required at some location, it is required for the same
    request at location "adjacent". *)
Theorem adjacent_is_strictest
    loc h st lb a23 a24 a4 ao tpo flb nb pd :
  get_planning_permission_decision loc h st lb a23 a24 a4 ao tpo flb nb pd
  = "Y" ->
  get_planning_permission_decision "adjacent" h st
    lb a23 a24 a4 ao tpo flb nb pd
  = "Y".
Proof.
  unfold get_planning_permission_decision.
  destruct (Py.any _); [easy|]. destruct pd; [easy|].
  unfold baseline.
  destruct (Py.lower st =? "gate"); [easy|].
  destruct (Py.lower st =? "fence"); [|easy].
  destruct (loc =? "adjacent"); [easy|].
  destruct (String.eqb_spec h "above_2m") as [->|_]; [reflexivity|discriminate].
Qed.

Lemma adjacent_is_strictest_witness :
  get_planning_permission_decision "adjacent" "above_2m" "fence"
    false false false false false false false false false
  = "Y".
Proof.
  apply (adjacent_is_strictest "not_adjacent" "above_2m" "fence"
           false false false false false false false false false).
  reflexivity.
Defined.

(** ** Sample runs of the front end, with decimal input *)

Lemma get_numeric_choice_first_accepted_witness :
  Cli.get_numeric_choice Cli.decimal_int "Choice: " Cli.structure_choices
    (["abc"; "7"] ++ "2" :: ["1"])
  = (Cli.Ok 2%Z, ["1"],
     (flat_map (Cli.rejection Cli.decimal_int "Choice: "
                  Cli.structure_choices) ["abc"; "7"]
      ++ [Cli.Prompt "Choice: "])%list).
Proof.
  apply (get_numeric_choice_first_accepted Cli.decimal_int "Choice: "
           Cli.structure_choices ["abc"; "7"] "2" 2%Z ["1"]).
  - repeat constructor.
  - reflexivity.
  - cbn. tauto.
Defined.

Example rejected_lines_are_reported :
  Cli.get_numeric_choice Cli.decimal_int "Choice: " Cli.structure_choices
    ["abc"; "7"; "2"; "1"]
  = (Cli.Ok 2%Z, ["1"],
     [ Cli.Prompt "Choice: ";
       Cli.LogError "Invalid input; please enter a number.";
       Cli.Prompt "Choice: ";
       Cli.LogError "Invalid choice. Please enter one of: [1, 2, 3]";
       Cli.Prompt "Choice: " ]).
Proof. reflexivity. Qed.

Lemma get_numeric_choice_returns_key_witness :
  In 4%Z (Cli.keys Cli.height_choices)
  /\ exists bad line,
       ["0"; "5"; "-1"; "4"; "2"] = (bad ++ line :: ["2"])%list
       /\ Cli.decimal_int line = Some 4%Z
       /\ Forall (fun l =>
                    Cli.accepted Cli.decimal_int Cli.height_choices l = false)
                 bad.
Proof.
  eapply (get_numeric_choice_returns_key Cli.decimal_int "Height: "
            Cli.height_choices ["0"; "5"; "-1"; "4"; "2"] 4%Z ["2"]).
  reflexivity.
Defined.

Lemma get_numeric_choice_eof_witness :
  Cli.get_numeric_choice Cli.decimal_int "Choice: " Cli.location_choices
    ["3"; ""; "one"]
  = (Cli.Raise Cli.EOFError, [],
     (flat_map (Cli.rejection Cli.decimal_int "Choice: "
                  Cli.location_choices) ["3"; ""; "one"]
      ++ [Cli.Prompt "Choice: "])%list).
Proof.
  apply (proj1 (get_numeric_choice_eof Cli.decimal_int "Choice: "
                  Cli.location_choices ["3"; ""; "one"])).
  repeat constructor.
Defined.

Lemma prompt_user_for_input_fails_only_at_eof_witness :
  exists ev,
    Cli.prompt_user_for_input Cli.decimal_int ["2"; "yes"; "1"; "7"]
    = (Cli.Raise Cli.EOFError, [], ev)
    /\ (Cli.EOFError = Cli.EOFError /\ @nil string = []).
Proof.
  eexists. split; [reflexivity|].
  eapply (prompt_user_for_input_fails_only_at_eof Cli.decimal_int
            ["2"; "yes"; "1"; "7"]).
  reflexivity.
Defined.


Lemma prompt_user_for_input_decision_witness :
  let '(r, rest', ev) :=
    Cli.prompt_user_for_input Cli.decimal_int
      (["2"; "2"; "2"; "2"; "2"; "2"; "2"; "1"; "1"; "3"; "2"; "2"]
       ++ ["again"])%list in
  r = Cli.Ok tt
  /\ rest' = ["again"]
  /\ Cli.logged_errors ev = 0
  /\ Cli.printed ev
     = [ "Welcome to the PlanningHub Code Challenge!";
         "Enter the details for the planning permission check."
         ++ Cli.newline;
         Cli.newline ++ "Result: Planning permission required: "
         ++ get_planning_permission_decision "adjacent" "up_to_2m" "fence"
              false false false false false false false false false ].
Proof.
  apply (prompt_user_for_input_decision Cli.decimal_int
           1%Z 1%Z 3%Z "fence" "adjacent" "up_to_2m" false false
           ["2"; "2"; "2"; "2"; "2"; "2"; "2"; "1"; "1"; "3"; "2"; "2"]
           ["again"]).
  - left. reflexivity.
  - left. reflexivity.
  - right. right. left. reflexivity.
  - reflexivity.
Defined.

Lemma prompt_user_for_input_prints_result_witness :
  exists ev,
    Cli.prompt_user_for_input Cli.decimal_int
      ["2"; "2"; "2"; "2"; "x"; "2"; "2"; "2"; "3"; "9"; "1"; "4"; "1"; "2"]
    = (Cli.Ok tt, [], ev)
    /\ Cli.ends_in Cli.result_lines (Cli.printed ev).
Proof.
  eexists. split; [reflexivity|].
  eapply (prompt_user_for_input_prints_result Cli.decimal_int
            ["2"; "2"; "2"; "2"; "x"; "2"; "2"; "2"; "3"; "9"; "1"; "4"; "1";
             "2"]).
  reflexivity.
Defined.
